(** * Uptime Robot monitor reconciliation: a shallow embedding of
      [monitoring/uptimerobot.py] and the properties of its [main].

    The module is Python 2 ([urllib.urlencode]).  Its values are modelled by
    [pyval], its dictionaries by finite maps, its two ways of stopping early
    ([module.fail_json] and an uncaught exception) by the [outcome] type, and
    the remote service together with the transport ([fetch_url]) by a
    transition function on an arbitrary [World].  Every remote call is
    recorded, with its answer, in a trace. *)

From Stdlib Require Import ZArith String List Bool Lia.
From stdpp Require Import gmap strings list fin_maps.

Set Warnings "-register-all".
Open Scope string_scope.
Open Scope Z_scope.

(** ** Python values *)

(** What [json.loads] and [module.params] can hand to the module.  JSON
    numbers are kept to the integers. *)
Inductive pyval : Type :=
| PNone
| PBool (b : bool)
| PInt (z : Z)
| PStr (s : string)
| PList (l : list pyval)
| PDict (d : gmap string pyval).

Inductive pyexn : Type := KeyError | IndexError | TypeError | ValueError.

(** A pure Python expression either has a value or raises. *)
Inductive exc (A : Type) : Type :=
| Val (a : A)
| Exn (e : pyexn).
Arguments Val {A} a.
Arguments Exn {A} e.

Definition exc_bind {A B} (x : exc A) (f : A -> exc B) : exc B :=
  match x with
  | Val a => f a
  | Exn e => Exn e
  end.

(** [bool(v)], as used by [if v:] and [not v]. *)
Definition truthy (v : pyval) : bool :=
  match v with
  | PNone => false
  | PBool b => b
  | PInt z => negb (z =? 0)
  | PStr s => negb (String.eqb s "")
  | PList l => match l with [] => false | _ => true end
  | PDict d => negb (bool_decide (d = ∅))
  end.

(** [v[k]] for a string key [k]. *)
Definition getitem (v : pyval) (k : string) : exc pyval :=
  match v with
  | PDict d => match d !! k with
               | Some x => Val x
               | None => Exn KeyError
               end
  | _ => Exn TypeError
  end.

(** A string value holds the UTF-8 encoding of a text, whose characters
    Python counts and indexes: a byte of the form 10xxxxxx continues the
    character begun before it. *)
Definition continuation (c : Ascii.ascii) : bool :=
  match c with
  | Ascii.Ascii _ _ _ _ _ _ b6 b7 => b7 && negb b6
  end.

Fixpoint char_count (s : string) : nat :=
  match s with
  | String c s' => (if continuation c then 0 else 1) + char_count s'
  | EmptyString => 0
  end.

(** The continuation bytes a string starts with. *)
Fixpoint continuations (s : string) : string :=
  match s with
  | String c s' => if continuation c then String c (continuations s') else EmptyString
  | EmptyString => EmptyString
  end.

(** [v[0]]; of a string, its first character. *)
Definition getitem0 (v : pyval) : exc pyval :=
  match v with
  | PList l => match l with
               | x :: _ => Val x
               | [] => Exn IndexError
               end
  | PStr s => match s with
              | String c s' => Val (PStr (String c (continuations s')))
              | EmptyString => Exn IndexError
              end
  | PDict _ => Exn KeyError
  | _ => Exn TypeError
  end.

Fixpoint substring_of (needle hay : string) : bool :=
  if String.prefix needle hay then true
  else match hay with
       | String _ hay' => substring_of needle hay'
       | EmptyString => false
       end.

Definition is_str (s : string) (v : pyval) : bool :=
  match v with
  | PStr s' => String.eqb s' s
  | _ => false
  end.

(** [k in v] for a string literal [k]. *)
Definition contains (k : string) (v : pyval) : exc bool :=
  match v with
  | PDict d => Val (bool_decide (is_Some (d !! k)))
  | PList l => Val (existsb (is_str k) l)
  | PStr s => Val (substring_of k s)
  | _ => Exn TypeError
  end.

(** [len(v)]; of a string, the number of its characters. *)
Definition py_len (v : pyval) : exc Z :=
  match v with
  | PList l => Val (Z.of_nat (length l))
  | PStr s => Val (Z.of_nat (char_count s))
  | PDict d => Val (Z.of_nat (size d))
  | _ => Exn TypeError
  end.

(** [v != s] for a string literal [s]. *)
Definition ne_str (v : pyval) (s : string) : bool := negb (is_str s v).

(** ** Requests, answers, module parameters *)

(** The keys of [API_ACTIONS]; the underscores leave the names [newMonitor]
    and [deleteMonitor] to the functions. *)
Inductive Action : Type := status | editMonitor | newMonitor_ | deleteMonitor_.

Definition API_FORMAT : pyval := PStr "json".
Definition API_NOJSONCALLBACK : pyval := PInt 1.

(** A request is the action and the parameter dictionary that [doRequest]
    url-encodes behind [API_BASE + API_ACTIONS[action]]; the encoding itself
    is not modelled, and is taken not to raise. *)
Record Request : Type := mkRequest {
  req_action : Action;
  req_params : gmap string pyval
}.

(** What [fetch_url] gives back: [info['status']], [info['msg']] and the
    body, [None] when the body is not JSON. *)
Record Response : Type := mkResponse {
  info_status : Z;
  info_msg : pyval;
  body : option pyval
}.

Definition Event : Type := Request * Response.

(** The choices of the [state] argument. *)
Inductive State : Type := started | paused | present | absent.

(** [module.params]; the optional arguments are [None] when not given. *)
Record ModuleParams : Type := mkParams {
  state : State;
  apikey : string;
  monitorid : option string;
  monitorname : option string;
  monitorurl : option string;
  monitorcontactid : option string
}.

Definition param (o : option string) : pyval :=
  match o with
  | Some s => PStr s
  | None => PNone
  end.

(** The local variables of [main] that are assigned more than once. *)
Record Locals : Type := mkLocals {
  v_result : pyval;
  v_changed : bool;
  v_monitor_id : pyval
}.

(** The arguments of the final [module.exit_json]. *)
Record ExitArgs : Type := mkExit {
  exit_msg : string;
  exit_result : pyval;
  exit_changed : bool
}.

(** How a computation of the module stops. *)
Inductive outcome (A : Type) : Type :=
| Ok (a : A)
| FailJson (msg : string) (res : option pyval)
| Raised (e : pyexn).
Arguments Ok {A} a.
Arguments FailJson {A} msg res.
Arguments Raised {A} e.

(** The parameter dictionaries built in [main]. *)
Definition search_params (api_key : string) (search_term : pyval) : gmap string pyval :=
  <["apiKey" := PStr api_key]> (
  <["search" := search_term]> (
  <["format" := API_FORMAT]> (
  <["noJsonCallback" := API_NOJSONCALLBACK]> ∅))).

Definition id_params (api_key : string) (monitor_id : pyval) : gmap string pyval :=
  <["apiKey" := PStr api_key]> (
  <["monitors" := monitor_id]> (
  <["monitorID" := monitor_id]> (
  <["format" := API_FORMAT]> (
  <["noJsonCallback" := API_NOJSONCALLBACK]> ∅)))).

Definition new_params (api_key : string) (monitor_name monitor_url monitor_contact_id : pyval)
  : gmap string pyval :=
  <["apiKey" := PStr api_key]> (
  <["monitorFriendlyName" := monitor_name]> (
  <["monitorURL" := monitor_url]> (
  <["monitorAlertContacts" := monitor_contact_id]> (
  <["monitorType" := PInt 1]> (
  <["format" := API_FORMAT]> (
  <["noJsonCallback" := API_NOJSONCALLBACK]> ∅)))))).

Definition status_codes_paused : string := "0".
Definition status_codes_up : string := "2".

(** ** The module, over an arbitrary remote service *)

Section Engine.

(** The remote service and the transport: one call answers and moves on. *)
Context {World : Type}.
Variable fetch : World -> Request -> Response * World.

Record St : Type := mkSt {
  world : World;
  trace : list Event
}.

Definition M (A : Type) : Type := St -> outcome A * St.

Definition ret {A} (a : A) : M A := fun st => (Ok a, st).

Definition bind {A B} (m : M A) (f : A -> M B) : M B :=
  fun st =>
    match m st with
    | (Ok a, st') => f a st'
    | (FailJson msg res, st') => (FailJson msg res, st')
    | (Raised e, st') => (Raised e, st')
    end.

Definition fail_json {A} (msg : string) (res : option pyval) : M A :=
  fun st => (FailJson msg res, st).

Definition lift {A} (x : exc A) : M A :=
  fun st =>
    match x with
    | Val a => (Ok a, st)
    | Exn e => (Raised e, st)
    end.

Definition fetch_url (rq : Request) : M Response :=
  fun st =>
    let (r, w) := fetch (world st) rq in
    (Ok r, {| world := w; trace := trace st ++ [(rq, r)] |}).

Notation "'let*' x ':=' c 'in' k" := (bind c (fun x => k))
  (at level 10, x name, c at level 100, k at level 200).
Notation "c ';;' k" := (bind c (fun _ => k))
  (at level 100, k at level 200, right associativity).

Definition checkStatus (info : Response) : M unit :=
  if negb (info_status info =? 200)
  then fail_json "failed" (Some (info_msg info))
  else ret tt.

Definition checkResult (result : pyval) : M unit :=
  let* stat := lift (getitem result "stat") in
  if ne_str stat "ok"
  then
    let* message := lift (getitem result "message") in
    fail_json "failed" (Some message)
  else ret tt.

Definition doRequest (action : Action) (params : gmap string pyval) : M pyval :=
  let* r := fetch_url (mkRequest action params) in
  checkStatus r ;;
  match body r with
  | Some jsonresult => ret jsonresult
  | None => lift (Exn ValueError)
  end.

Definition checkID (params : gmap string pyval) : M pyval :=
  doRequest status params.

Definition newMonitor (params : gmap string pyval) : M pyval :=
  let* contacts := lift (getitem (PDict params) "monitorAlertContacts") in
  let params := if negb (truthy contacts)
                then delete "monitorAlertContacts" params
                else params in
  doRequest newMonitor_ params.

(** [del params['monitors']] raises on a missing key. *)
Definition deleteMonitor (params : gmap string pyval) : M pyval :=
  lift (getitem (PDict params) "monitors") ;;
  doRequest deleteMonitor_ (delete "monitors" params).

Definition startMonitor (params : gmap string pyval) : M pyval :=
  doRequest editMonitor (<["monitorStatus" := PInt 1]> params).

Definition pauseMonitor (params : gmap string pyval) : M pyval :=
  doRequest editMonitor (<["monitorStatus" := PInt 0]> params).

(** Lines 216-238: the argument check and the search by name or url. *)
Definition resolve (p : ModuleParams) (l : Locals) : M Locals :=
  let monitor_name := param (monitorname p) in
  let monitor_url := param (monitorurl p) in
  (if negb (truthy (v_monitor_id l)) && negb (truthy monitor_name)
      && negb (truthy monitor_url)
   then fail_json "at least one of monitorid, monitorname or monitorurl are required" None
   else ret tt) ;;
  if negb (truthy (v_monitor_id l)) then
    let search_term := monitor_name in
    let search_term := if truthy monitor_url then monitor_url else search_term in
    let params := search_params (apikey p) search_term in
    let* result := checkID params in
    let* has := lift (contains "monitors" result) in
    if has then
      let* monitors := lift (exc_bind (getitem result "monitors")
                                      (fun m => getitem m "monitor")) in
      let* n := lift (py_len monitors) in
      if n =? 1 then
        let* id := lift (exc_bind (getitem0 monitors) (fun m => getitem m "id")) in
        ret (mkLocals result (v_changed l) id)
      else fail_json "unable to uniquely identify monitor" None
    else ret (mkLocals result (v_changed l) (v_monitor_id l))
  else ret l.

(** Lines 263-270: creation. *)
Definition present_step (p : ModuleParams) (l : Locals) : M Locals :=
  let new_params := new_params (apikey p) (param (monitorname p))
                      (param (monitorurl p)) (param (monitorcontactid p)) in
  match state p with
  | present =>
      let* name := lift (getitem (PDict new_params) "monitorFriendlyName") in
      let* url := lift (getitem (PDict new_params) "monitorURL") in
      (if negb (truthy name) || negb (truthy url)
       then fail_json "monitorname and monitorurl are required for state present" None
       else ret tt) ;;
      if negb (truthy (v_monitor_id l)) then
        let* result := newMonitor new_params in
        checkResult result ;;
        ret (mkLocals result true (v_monitor_id l))
      else ret l
  | _ => ret l
  end.

(** Lines 272-293: the confirming read and the edit or delete. *)
Definition reconcile_step (p : ModuleParams) (l : Locals) : M Locals :=
  let id_params := id_params (apikey p) (v_monitor_id l) in
  if truthy (v_monitor_id l) then
    let* result := checkID id_params in
    checkResult result ;;
    let* monitor_status :=
      lift (exc_bind (getitem result "monitors") (fun ms =>
            exc_bind (getitem ms "monitor") (fun m =>
            exc_bind (getitem0 m) (fun m0 => getitem m0 "status")))) in
    let* l' :=
      match state p with
      | started =>
          if ne_str monitor_status status_codes_up then
            let* result := startMonitor id_params in
            ret (mkLocals result true (v_monitor_id l))
          else ret (mkLocals result (v_changed l) (v_monitor_id l))
      | paused =>
          if ne_str monitor_status status_codes_paused then
            let* result := pauseMonitor id_params in
            ret (mkLocals result true (v_monitor_id l))
          else ret (mkLocals result (v_changed l) (v_monitor_id l))
      | absent =>
          let* result := deleteMonitor id_params in
          ret (mkLocals result true (v_monitor_id l))
      | present => ret (mkLocals result (v_changed l) (v_monitor_id l))
      end in
    checkResult (v_result l') ;;
    ret l'
  else ret l.

(** [main] up to, and without, the final [exit_json]. *)
Definition main_body (p : ModuleParams) : M Locals :=
  let l := mkLocals PNone false (param (monitorid p)) in
  let* l := resolve p l in
  let* l := present_step p l in
  reconcile_step p l.

Definition main (p : ModuleParams) : M ExitArgs :=
  let* l := main_body p in
  let* stat := lift (getitem (v_result l) "stat") in
  ret (mkExit "success" stat (v_changed l)).

Definition run {A} (m : M A) (w : World) : outcome A * list Event :=
  let (o, st) := m (mkSt w []) in (o, trace st).

End Engine.

Arguments search_params : simpl never.
Arguments id_params : simpl never.
Arguments new_params : simpl never.

(** ** What a run shows: the calls and their kinds *)

Definition calls {A} (x : outcome A * list Event) : list Request := map fst (snd x).

Definition actions (t : list Event) : list Action := map (fun e => req_action (fst e)) t.

(** The writes of the service: create, edit and delete. *)
Definition is_mutating (rq : Request) : bool :=
  match req_action rq with
  | status => false
  | _ => true
  end.

Definition is_read (rq : Request) : bool := negb (is_mutating rq).

Definition is_create (rq : Request) : bool :=
  match req_action rq with
  | newMonitor_ => true
  | _ => false
  end.

(** The identity search is the read that carries a search term, the
    confirming read the one that carries the monitor id. *)
Definition is_search (rq : Request) : bool :=
  match req_action rq, req_params rq !! "search" with
  | status, Some _ => true
  | _, _ => false
  end.

Definition is_confirm (rq : Request) : bool :=
  match req_action rq, req_params rq !! "monitors" with
  | status, Some _ => true
  | _, _ => false
  end.




(** The search term of lines 222-224 and the request of line 232. *)
Definition search_term (p : ModuleParams) : pyval :=
  if truthy (param (monitorurl p)) then param (monitorurl p)
  else param (monitorname p).

Definition search_request (p : ModuleParams) : Request :=
  mkRequest status (search_params (apikey p) (search_term p)).

Definition sent_search_term (t : list Event) : option pyval :=
  match t with
  | (rq, _) :: _ => req_params rq !! "search"
  | [] => None
  end.

(** The request of [newMonitor] on the [new_params] of line 248. *)
Definition create_request (p : ModuleParams) : Request :=
  let params := new_params (apikey p) (param (monitorname p)) (param (monitorurl p))
                  (param (monitorcontactid p)) in
  mkRequest newMonitor_
    (if negb (truthy (param (monitorcontactid p)))
     then delete "monitorAlertContacts" params
     else params).

(** Lines 206-211: the locals before the first remote call. *)
Definition initial_locals (p : ModuleParams) : Locals :=
  mkLocals PNone false (param (monitorid p)).

(** ** The reads of the monitor list *)

(** [result['monitors']['monitor']], read after the identity search. *)
Definition monitor_list (payload : pyval) : exc pyval :=
  exc_bind (getitem payload "monitors") (fun m => getitem m "monitor").


(** [result['monitors']['monitor'][0]['status']], read after the confirming
    read. *)
Definition first_status (payload : pyval) : exc pyval :=
  exc_bind (getitem payload "monitors") (fun ms =>
  exc_bind (getitem ms "monitor") (fun m =>
  exc_bind (getitem0 m) (fun m0 => getitem m0 "status"))).


(** ** Well-formed answers *)







(** ** A scripted remote service, for running the module on examples *)

(** The service answers the calls in order from a list; once the list is
    used up the transport reports a failed connection. *)
Definition scripted (w : list Response) (rq : Request) : Response * list Response :=
  match w with
  | r :: w' => (r, w')
  | [] => (mkResponse (-1) (PStr "no answer") None, [])
  end.

Definition dict (kvs : list (string * pyval)) : pyval := PDict (list_to_map kvs).

Definition answer (payload : pyval) : Response := mkResponse 200 (PStr "OK") (Some payload).

Definition monitor_record (id st : string) : pyval :=
  dict [("id", PStr id); ("status", PStr st)].

Definition monitors_payload (ms : list pyval) : pyval :=
  dict [("stat", PStr "ok"); ("monitors", dict [("monitor", PList ms)])].

Definition failure_payload (message : string) : pyval :=
  dict [("stat", PStr "fail"); ("message", PStr message)].

Definition ack_payload : pyval := dict [("stat", PStr "ok")].

Definition created_payload (id : string) : pyval :=
  dict [("stat", PStr "ok"); ("monitor", dict [("id", PStr id); ("status", PStr "1")])].

Definition api_key : string := "12345-1234512345".

(** Name and url both given, state started; the monitor exists and is up. *)
Definition name_and_url : ModuleParams :=
  mkParams started api_key None (Some "google") (Some "https://www.google.com") None.

Definition one_monitor_up : list Response :=
  [answer (monitors_payload [monitor_record "12345" "2"]);
   answer (monitors_payload [monitor_record "12345" "2"])].

(** A name only, state started or paused or absent; the search finds
    nothing. *)
Definition by_name (s : State) : ModuleParams :=
  mkParams s api_key None (Some "google") None None.

Definition nothing_found : list Response :=
  [answer (failure_payload "no monitors found")].

(** A name only, state paused; the monitor exists and is up. *)
Definition found_confirmed_paused : list Response :=
  [answer (monitors_payload [monitor_record "12345" "2"]);
   answer (monitors_payload [monitor_record "12345" "2"]);
   answer ack_payload].

(** The first example of the module's documentation: a monitor to add. *)
Definition add_google : ModuleParams :=
  mkParams present api_key None (Some "google") (Some "https://www.google.com")
    (Some "98765").

Definition nothing_found_then_created : list Response :=
  [answer (failure_payload "no monitors found"); answer (created_payload "777")].

(** State present with an explicit id and neither name nor url. *)
Definition present_by_id : ModuleParams :=
  mkParams present api_key (Some "12345") None None None.

(** A stale explicit id, state started. *)
Definition start_stale : ModuleParams :=
  mkParams started api_key (Some "99999") None None None.

Definition stale_answer : list Response :=
  [answer (failure_payload "monitor not found")].


(** ** The writes, and what every request carries *)

(** [startMonitor] and [pauseMonitor] (lines 168-177) on the dictionary of
    the confirming read [rq]: the same parameters and the [monitorStatus]
    flag. *)
Definition edit_request (rq : Request) (monitor_status : Z) : Request :=
  mkRequest editMonitor (<["monitorStatus" := PInt monitor_status]> (req_params rq)).

(** [deleteMonitor] (lines 163-166) on the dictionary of the confirming
    read [rq]: the same parameters without [monitors]. *)
Definition delete_request (rq : Request) : Request :=
  mkRequest deleteMonitor_ (delete "monitors" (req_params rq)).

(** Lines 263-288: the one write each desired state can lead to. *)
Definition write_of (s : State) : Action :=
  match s with
  | started | paused => editMonitor
  | present => newMonitor_
  | absent => deleteMonitor_
  end.

(** The parameters every dictionary of [main] is built with (lines 226-231,
    240-256). *)
Definition common_params (api_key : string) (rq : Request) : Prop :=
  req_params rq !! "apiKey" = Some (PStr api_key)
  /\ req_params rq !! "format" = Some API_FORMAT
  /\ req_params rq !! "noJsonCallback" = Some API_NOJSONCALLBACK.

(** No parameter is [None], empty or zero, the api key and the
    [monitorStatus] flag apart. *)
Definition no_blank_param (rq : Request) : Prop :=
  map_Forall (fun k v => truthy v = true \/ k = "apiKey" \/ k = "monitorStatus")
    (req_params rq).

(** An answer [doRequest] returns from: status 200 and a JSON body. *)
Definition usable (ev : Event) : Prop :=
  info_status (snd ev) = 200 /\ is_Some (body (snd ev)).

(** Two invocations ask for the same thing of the same monitor: the same
    state, api key and monitor id and, when no id is given, the same search
    term. *)
Definition same_target (p p' : ModuleParams) : Prop :=
  state p' = state p
  /\ apikey p' = apikey p
  /\ monitorid p' = monitorid p
  /\ (truthy (param (monitorid p)) = true \/ search_term p' = search_term p).

(** ** Further examples *)

(** No monitor is named at all. *)
Definition nothing_named : ModuleParams :=
  mkParams started api_key None None None None.

(** A name and alert contacts, state started. *)
Definition by_name_with_contacts : ModuleParams :=
  mkParams started api_key None (Some "google") None (Some "98765").

(** The transport fails on the first call. *)
Definition no_answer : list Response := [].

(** The first answer is not JSON. *)
Definition not_json : list Response := [mkResponse 200 (PStr "OK") None].

(** The first answer is an empty JSON object. *)
Definition empty_object_answer : list Response := [answer (dict [])].

(** The search matches two monitors. *)
Definition two_monitors : list Response :=
  [answer (monitors_payload [monitor_record "12345" "2"; monitor_record "67890" "0"])].

(** ** Proof tools: symbolic execution of [main] *)

Lemma new_params_name k n u c :
  getitem (PDict (new_params k n u c)) "monitorFriendlyName" = Val n.
Proof. unfold new_params, getitem. by simplify_map_eq. Qed.

Lemma new_params_url k n u c :
  getitem (PDict (new_params k n u c)) "monitorURL" = Val u.
Proof. unfold new_params, getitem. by simplify_map_eq. Qed.

Lemma new_params_contacts k n u c :
  getitem (PDict (new_params k n u c)) "monitorAlertContacts" = Val c.
Proof. unfold new_params, getitem. by simplify_map_eq. Qed.

Lemma id_params_monitors k i :
  getitem (PDict (id_params k i)) "monitors" = Val i.
Proof. unfold id_params, getitem. by simplify_map_eq. Qed.

Lemma search_params_term k t : search_params k t !! "search" = Some t.
Proof. unfold search_params. by simplify_map_eq. Qed.

Lemma is_search_search k t : is_search (mkRequest status (search_params k t)) = true.
Proof. unfold is_search, search_params. cbn [req_action req_params]. by simplify_map_eq. Qed.

Lemma is_search_confirm k i : is_search (mkRequest status (id_params k i)) = false.
Proof. unfold is_search, id_params. cbn [req_action req_params]. by simplify_map_eq. Qed.

Lemma is_confirm_search k t : is_confirm (mkRequest status (search_params k t)) = false.
Proof. unfold is_confirm, search_params. cbn [req_action req_params]. by simplify_map_eq. Qed.

Lemma is_confirm_confirm k i : is_confirm (mkRequest status (id_params k i)) = true.
Proof. unfold is_confirm, id_params. cbn [req_action req_params]. by simplify_map_eq. Qed.

Ltac unfold_main :=
  unfold run, main, main_body, resolve, present_step, reconcile_step,
    newMonitor, startMonitor, pauseMonitor, deleteMonitor, checkID, doRequest,
    checkResult, checkStatus, fetch_url, bind, ret, lift, fail_json, calls;
  rewrite ?new_params_name, ?new_params_url, ?new_params_contacts,
    ?id_params_monitors.

Ltac tidy :=
  cbn [fst snd world trace v_result v_changed v_monitor_id app exc_bind
       negb andb orb exit_changed exit_msg exit_result] in *.

(** At the next undetermined test, use a hypothesis that settles it, else
    split on it. *)
Ltac settle x :=
  lazymatch x with
  | negb ?y => settle y
  | ?a && _ => settle a
  | ?a || _ => settle a
  | _ => first [ match goal with H : x = _ |- _ => rewrite H end
               | let E := fresh "Hc" in destruct x eqn:E ]
  end.

Ltac path_step :=
  match goal with
  | |- context [getitem (PDict (id_params _ _)) "monitors"] =>
      rewrite id_params_monitors
  | |- context [let (_, _) := ?f ?w ?rq in _] =>
      lazymatch rq with
      | context [match _ with _ => _ end] => fail
      | _ => settle (f w rq)
      end
  | |- context [match ?x with _ => _ end] =>
      lazymatch x with
      | context [match _ with _ => _ end] => fail
      | _ => settle x
      end
  end; tidy.

Ltac paths := tidy; repeat path_step.

(** Hides the conclusion behind a name while the run is executed. *)
Ltac hide_goal o t :=
  pattern o, t;
  match goal with
  | |- ?P o t => let Q := fresh "Q" in set (Q := P)
  end.


(** Splits a membership in a concrete trace into its events. *)
Ltac in_trace H :=
  cbn [In] in H;
  repeat (destruct H as [H | H]; [injection H as <- <- | ]);
  try contradiction.

Ltac ends_with :=
  first [ by exists [] | by eexists [_] | by eexists [_; _] ].

(** Two reads of one answer's body give one payload. *)
Ltac same_body :=
  repeat match goal with
         | H : body ?r = Some ?a, H' : body ?r = Some ?b |- _ =>
             rewrite H in H'; injection H' as <-
         end.

Ltac same_value :=
  repeat match goal with
         | H : ?x = Val ?a, H' : ?x = Val ?b |- _ =>
             rewrite H in H'; injection H' as H';
             first [ subst a | subst b | idtac ]
         | H : ?x = Val _, H' : ?x = Exn _ |- _ =>
             rewrite H in H'; discriminate H'
         end.

(** ** The reads of the monitor list and the well-formed answers *)












(** ** The claims *)

Section Claims.

Context {World : Type} (fetch : World -> Request -> Response * World).

(** [main] is [main_body] followed by the report. *)
Lemma run_main (p : ModuleParams) (w : World) :
  run (main fetch p) w
  = (match fst (run (main_body fetch p) w) with
     | Ok l => match getitem (v_result l) "stat" with
               | Val stat => Ok (mkExit "success" stat (v_changed l))
               | Exn e => Raised e
               end
     | FailJson msg res => FailJson msg res
     | Raised e => Raised e
     end,
     snd (run (main_body fetch p) w)).
Proof.
  unfold run, main, bind, lift, ret.
  destruct (main_body fetch p (mkSt w [])) as [[l | msg res | e] st]; cbn [fst snd];
    [| reflexivity | reflexivity].
  destruct (getitem (v_result l) "stat"); reflexivity.
Qed.

(** C1, as amended: without an explicit monitor id, the identity search is
    the first remote call and its search term is the url whenever a url is
    given; the name is the search term only when no url is given. *)
Theorem search_term_is_url_then_name (p : ModuleParams) (w : World) :
  truthy (param (monitorid p)) = false ->
  truthy (param (monitorname p)) || truthy (param (monitorurl p)) = true ->
  exists r rest,
    snd (run (main fetch p) w) = (search_request p, r) :: rest
    /\ sent_search_term (snd (run (main fetch p) w))
       = Some (if truthy (param (monitorurl p)) then param (monitorurl p)
               else param (monitorname p)).
Proof.
  intros Hid Hterm. unfold sent_search_term, search_request, search_term.
  destruct (run (main fetch p) w) as [o t] eqn:Hrun. cbn [snd].
  destruct (truthy (param (monitorurl p))) eqn:Hurl;
    destruct (truthy (param (monitorname p))) eqn:Hname; try discriminate Hterm.
  all: revert Hrun; unfold_main; rewrite ?Hurl, ?Hname; paths.
  all: intros [= <- <-].
  all: eexists _, _; split; [reflexivity | apply search_params_term].
Qed.

(** C2, as amended: with desired state started or paused, no explicit id,
    and a search whose payload carries no monitors entry (no monitor is
    resolved), the search is the only remote call (no edit is issued) and
    the invocation does not fail: it reports success with changed = false
    and the search payload's logical status as result. *)
Theorem start_pause_unresolved_reports_success
    (p : ModuleParams) (w w' : World) (r : Response) (payload : pyval) :
  state p = started \/ state p = paused ->
  truthy (param (monitorid p)) = false ->
  truthy (param (monitorname p)) || truthy (param (monitorurl p)) = true ->
  fetch w (search_request p) = (r, w') ->
  info_status r = 200 ->
  body r = Some payload ->
  contains "monitors" payload = Val false ->
  run (main fetch p) w
  = (match getitem payload "stat" with
     | Val stat => Ok (mkExit "success" stat false)
     | Exn e => Raised e
     end,
     [(search_request p, r)]).
Proof.
  intros Hstate Hid Hterm Hfetch Hstatus Hbody Hmonitors.
  unfold search_request, search_term in *.
  apply Z.eqb_eq in Hstatus.
  unfold_main.
  destruct (truthy (param (monitorurl p))) eqn:Hurl;
    destruct (truthy (param (monitorname p))) eqn:Hname; try discriminate Hterm.
  all: destruct Hstate as [Hstate | Hstate]; rewrite Hstate.
  all: paths.
  all: reflexivity.
Qed.

(** C3, as amended: an invocation issues at most three remote calls, and
    at most two when an explicit id is given: at most two reads (the
    identity search and the confirming read) and at most one mutating
    write; a creation is never followed by a confirming read. *)
Theorem remote_calls_at_most_three (p : ModuleParams) (w : World) :
  (length (calls (run (main fetch p) w))
     <= if truthy (param (monitorid p)) then 2 else 3)%nat
  /\ (length (List.filter is_read (calls (run (main fetch p) w))) <= 2)%nat
  /\ (length (List.filter is_mutating (calls (run (main fetch p) w))) <= 1)%nat
  /\ (if existsb is_create (calls (run (main fetch p) w))
      then length (List.filter is_read (calls (run (main fetch p) w))) <= 1
      else length (calls (run (main fetch p) w)) <= 3)%nat.
Proof.
  unfold calls.
  destruct (run (main fetch p) w) as [o t] eqn:Hrun. cbn [fst snd].
  destruct (truthy (param (monitorid p))) eqn:Hid.
  all: hide_goal o t; revert Hrun; unfold_main; paths.
  all: intros [= <- <-]; subst Q; cbn; repeat split; lia.
Qed.

(** C4, as amended: after every remote call other than the identity
    search (the create call, the confirming read, the edit or delete
    call) the payload's logical status is checked, and a failing value
    aborts the invocation there with the remote-provided message; the
    payload of the identity search is not checked. *)
Theorem logical_failure_aborts_after_every_call_but_search
    (p : ModuleParams) (w : World) (rq : Request) (r : Response)
    (payload stat message : pyval) :
  In (rq, r) (snd (run (main fetch p) w)) ->
  is_search rq = false ->
  info_status r = 200 ->
  body r = Some payload ->
  getitem payload "stat" = Val stat ->
  ne_str stat "ok" = true ->
  getitem payload "message" = Val message ->
  fst (run (main fetch p) w) = FailJson "failed" (Some message)
  /\ exists before, snd (run (main fetch p) w) = (before ++ [(rq, r)])%list.
Proof.
  destruct (run (main fetch p) w) as [o t] eqn:Hrun. cbn [fst snd].
  intros Hin Hsearch Hstatus Hbody Hstat Hne Hmessage.
  apply Z.eqb_eq in Hstatus.
  revert Hrun. unfold_main. paths.
  all: intros [= <- <-]; in_trace Hin.
  all: rewrite ?is_search_search in Hsearch.
  all: try congruence.
  all: split; [congruence | ends_with].
Qed.

(** C5, as amended: when a present invocation issues a create operation
    and it succeeds, changed = true is reported with success, and the
    create call is the last remote call; the id in the payload of the
    create operation is not read: the resolved id stays unset. *)
Theorem create_success_reports_changed
    (p : ModuleParams) (w : World) (rq : Request) (r : Response) (payload : pyval) :
  In (rq, r) (snd (run (main fetch p) w)) ->
  req_action rq = newMonitor_ ->
  info_status r = 200 ->
  body r = Some payload ->
  getitem payload "stat" = Val (PStr "ok") ->
  fst (run (main fetch p) w) = Ok (mkExit "success" (PStr "ok") true)
  /\ (exists before, snd (run (main fetch p) w) = (before ++ [(rq, r)])%list)
  /\ exists id, fst (run (main_body fetch p) w) = Ok (mkLocals payload true id)
                /\ truthy id = false.
Proof.
  rewrite run_main.
  destruct (run (main_body fetch p) w) as [o t] eqn:Hrun. cbn [fst snd].
  intros Hin Haction Hstatus Hbody Hstat.
  apply Z.eqb_eq in Hstatus.
  assert (Hok : ne_str (PStr "ok") "ok" = false) by reflexivity.
  assert (Hkey : (exists id, o = Ok (mkLocals payload true id) /\ truthy id = false)
                 /\ exists before, t = (before ++ [(rq, r)])%list).
  { revert Hrun. unfold_main. paths.
    all: intros [= <- <-]; in_trace Hin.
    all: try discriminate Haction.
    all: same_body; try congruence.
    all: split; [eexists; split; [reflexivity | assumption] | ends_with]. }
  destruct Hkey as ((id & -> & Hid) & Hlast). cbn [v_result v_changed].
  rewrite Hstat. eauto.
Qed.

(** C6, as amended: for desired state present, name and url are required
    whether or not an existing record is resolvable: once the identity is
    resolved (by an explicit id, or by the search), an invocation that
    lacks the name or the url fails with "monitorname and monitorurl are
    required for state present" and issues no further remote call. *)
Theorem present_requires_name_and_url
    (p : ModuleParams) (w : World) (l : Locals) (t : list Event) :
  state p = present ->
  truthy (param (monitorname p)) && truthy (param (monitorurl p)) = false ->
  run (resolve fetch p (initial_locals p)) w = (Ok l, t) ->
  run (main fetch p) w
  = (FailJson "monitorname and monitorurl are required for state present" None, t).
Proof.
  intros Hstate Hmissing Hresolve.
  unfold run, main, main_body, bind in *. fold (initial_locals p).
  destruct (resolve fetch p (initial_locals p) (mkSt w [])) as [o st].
  injection Hresolve as -> <-.
  unfold present_step, bind, lift, fail_json, ret.
  rewrite Hstate, new_params_name, new_params_url.
  destruct (truthy (param (monitorname p))), (truthy (param (monitorurl p)));
    try discriminate; reflexivity.
Qed.








End Claims.

(** ** Proof tools: the requests of a run *)

Lemma ne_str_false (v : pyval) (s : string) : ne_str v s = false -> v = PStr s.
Proof.
  unfold ne_str, is_str. destruct v; try discriminate.
  intros H. apply negb_false_iff, String.eqb_eq in H. by subst.
Qed.

Lemma common_params_search k t : common_params k (mkRequest status (search_params k t)).
Proof. unfold common_params, search_params. cbn [req_params]. by simplify_map_eq. Qed.

Lemma common_params_confirm k i : common_params k (mkRequest status (id_params k i)).
Proof. unfold common_params, id_params. cbn [req_params]. by simplify_map_eq. Qed.

Lemma common_params_edit k i v :
  common_params k (mkRequest editMonitor (<["monitorStatus" := v]> (id_params k i))).
Proof. unfold common_params, id_params. cbn [req_params]. by simplify_map_eq. Qed.

Lemma common_params_delete k i :
  common_params k (mkRequest deleteMonitor_ (delete "monitors" (id_params k i))).
Proof. unfold common_params, id_params. cbn [req_params]. by simplify_map_eq. Qed.

Lemma common_params_create k n u c :
  common_params k (mkRequest newMonitor_ (new_params k n u c)).
Proof. unfold common_params, new_params. cbn [req_params]. by simplify_map_eq. Qed.

Lemma common_params_create_no_contacts k n u c :
  common_params k
    (mkRequest newMonitor_ (delete "monitorAlertContacts" (new_params k n u c))).
Proof. unfold common_params, new_params. cbn [req_params]. by simplify_map_eq. Qed.

Lemma no_blank_search a k t :
  truthy t = true -> no_blank_param (mkRequest a (search_params k t)).
Proof.
  intros Ht. unfold no_blank_param, search_params. cbn [req_params].
  repeat apply map_Forall_insert_2; try apply map_Forall_empty; auto.
Qed.

Lemma no_blank_id a k i :
  truthy i = true -> no_blank_param (mkRequest a (id_params k i)).
Proof.
  intros Ht. unfold no_blank_param, id_params. cbn [req_params].
  repeat apply map_Forall_insert_2; try apply map_Forall_empty; auto.
Qed.

Lemma no_blank_edit a m v :
  no_blank_param (mkRequest a m) ->
  no_blank_param (mkRequest a (<["monitorStatus" := v]> m)).
Proof.
  unfold no_blank_param. cbn [req_params]. intros H.
  apply map_Forall_insert_2; auto.
Qed.

Lemma no_blank_delete a m k :
  no_blank_param (mkRequest a m) -> no_blank_param (mkRequest a (delete k m)).
Proof. unfold no_blank_param. cbn [req_params]. apply map_Forall_delete. Qed.

Lemma no_blank_create a k n u c :
  truthy n = true -> truthy u = true -> truthy c = true ->
  no_blank_param (mkRequest a (new_params k n u c)).
Proof.
  intros Hn Hu Hc. unfold no_blank_param, new_params. cbn [req_params].
  repeat apply map_Forall_insert_2; try apply map_Forall_empty; auto.
Qed.

Lemma no_blank_create_no_contacts a k n u c :
  truthy n = true -> truthy u = true ->
  no_blank_param (mkRequest a (delete "monitorAlertContacts" (new_params k n u c))).
Proof.
  intros Hn Hu. unfold no_blank_param, new_params. cbn [req_params].
  intros key v H. apply lookup_delete_Some in H as [Hne H].
  repeat (apply lookup_insert_Some in H as [[<- <-] | [? H]]; [by auto |]).
  done.
Qed.

Lemma edit_params_id k i v :
  <["monitorStatus" := v]> (id_params k i) !! "monitorID" = id_params k i !! "monitors".
Proof. unfold id_params. by simplify_map_eq. Qed.

Lemma edit_params_same_id k i v :
  <["monitorStatus" := v]> (id_params k i) !! "monitorID" = id_params k i !! "monitorID".
Proof. unfold id_params. by simplify_map_eq. Qed.

Lemma delete_params_monitors k i :
  delete "monitors" (id_params k i) !! "monitors" = None.
Proof. by simplify_map_eq. Qed.

Lemma delete_params_id k i :
  delete "monitors" (id_params k i) !! "monitorID" = id_params k i !! "monitors".
Proof. unfold id_params. by simplify_map_eq. Qed.

Lemma delete_params_same_id k i :
  delete "monitors" (id_params k i) !! "monitorID" = id_params k i !! "monitorID".
Proof. unfold id_params. by simplify_map_eq. Qed.

(** Splits a property of every request, or event, of a concrete trace. *)
Ltac each_request :=
  repeat match goal with |- Forall _ _ => constructor end.

(** Picks the lemma by the shape of the request. *)
Ltac no_blank :=
  lazymatch goal with
  | |- no_blank_param (mkRequest _ (search_params _ _)) => apply no_blank_search
  | |- no_blank_param (mkRequest _ (id_params _ _)) => apply no_blank_id
  | |- no_blank_param (mkRequest _ (insert _ _ (id_params _ _))) =>
      apply no_blank_edit, no_blank_id
  | |- no_blank_param (mkRequest _ (delete _ (id_params _ _))) =>
      apply no_blank_delete, no_blank_id
  | |- no_blank_param (mkRequest _ (new_params _ _ _ _)) => apply no_blank_create
  | |- no_blank_param (mkRequest _ (delete _ (new_params _ _ _ _))) =>
      apply no_blank_create_no_contacts
  end; assumption.

(** The trace is the confirming read and one more call, after at most the
    search. *)
Ltac after_confirm :=
  first [ exists []; eexists; split; [reflexivity |]
        | eexists [_]; eexists; split; [reflexivity |] ].

Ltac before_last :=
  first [ exists []; eexists _, _; split; [reflexivity |]
        | eexists [_]; eexists _, _; split; [reflexivity |] ].

Ltac last_event :=
  first [ eexists [], _, _, _; split; [reflexivity |]
        | eexists [_], _, _, _; split; [reflexivity |]
        | eexists [_; _], _, _, _; split; [reflexivity |] ].

Ltac last_call :=
  first [ eexists [], _, _; split; [reflexivity |]
        | eexists [_], _, _; split; [reflexivity |]
        | eexists [_; _], _, _; split; [reflexivity |] ].

(** A status that passed [checkResult] is the string [ok]. *)
Ltac status_ok :=
  repeat match goal with
         | H : ne_str ?a "ok" = false |- _ => apply ne_str_false in H; subst a
         end.

Ltac transport_facts :=
  repeat match goal with
         | H : (info_status _ =? 200) = true |- _ => apply Z.eqb_eq in H
         | H : (info_status _ =? 200) = false |- _ => apply Z.eqb_neq in H
         end.

(** The write carries the monitor id of the confirming read. *)
Ltac same_id :=
  cbn [req_params];
  lazymatch goal with
  | |- insert _ _ (id_params _ _) !! _ = _ => apply edit_params_same_id
  | |- delete _ (id_params _ _) !! _ = _ => apply delete_params_same_id
  end.

Ltac given_params :=
  repeat match goal with
         | H : truthy (param _) = _ |- _ => rewrite H
         end.

(** ** Further properties of [main] *)

Section Further.

Context {World : Type} (fetch : World -> Request -> Response * World).

(** X1: an invocation that names no monitor (no id, no name and no url, an
    empty string counting as none) fails with "at least one of monitorid,
    monitorname or monitorurl are required" before any remote call, and this
    failure occurs in no other case. *)
Theorem identity_argument_required (p : ModuleParams) (w : World) :
  (truthy (param (monitorid p)) || truthy (param (monitorname p))
   || truthy (param (monitorurl p)) = false ->
   run (main fetch p) w
   = (FailJson "at least one of monitorid, monitorname or monitorurl are required" None, []))
  /\ (fst (run (main fetch p) w)
      = FailJson "at least one of monitorid, monitorname or monitorurl are required" None ->
      truthy (param (monitorid p)) || truthy (param (monitorname p))
      || truthy (param (monitorurl p)) = false).
Proof.
  split.
  - intros H. apply orb_false_elim in H as [H Hurl].
    apply orb_false_elim in H as [Hid Hname].
    unfold_main. paths. reflexivity.
  - destruct (run (main fetch p) w) as [o t] eqn:Hrun. cbn [fst].
    revert Hrun. unfold_main. paths.
    all: intros [= <- <-]; try discriminate.
    all: intros _; reflexivity.
Qed.

(** X2: with an explicit monitor id no search is sent, whatever name and
    url are given: the first remote call is the confirming read of that id;
    no call at all is made only in state present without a name or a url. *)
Theorem explicit_id_skips_the_search (p : ModuleParams) (w : World) :
  truthy (param (monitorid p)) = true ->
  existsb is_search (calls (run (main fetch p) w)) = false
  /\ match snd (run (main fetch p) w) with
     | [] => state p = present
             /\ truthy (param (monitorname p)) && truthy (param (monitorurl p)) = false
     | (rq, _) :: _ =>
         rq = mkRequest status (id_params (apikey p) (param (monitorid p)))
     end.
Proof.
  unfold calls.
  destruct (run (main fetch p) w) as [o t] eqn:Hrun. cbn [fst snd].
  intros Hid. hide_goal o t. revert Hrun. unfold_main. paths.
  all: intros [= <- <-]; subst Q; cbn [map existsb fst orb].
  all: rewrite ?is_search_confirm; cbn [orb].
  all: split; try reflexivity.
  all: split; reflexivity.
Qed.

(** X3: when the payload of the search carries a monitors entry whose
    monitor list does not have exactly one element (none, or several), the
    invocation fails with "unable to uniquely identify monitor", in every
    state, and the search is its only remote call. *)
Theorem ambiguous_search_fails
    (p : ModuleParams) (w w' : World) (r : Response) (payload monitors : pyval) (n : Z) :
  truthy (param (monitorid p)) = false ->
  truthy (param (monitorname p)) || truthy (param (monitorurl p)) = true ->
  fetch w (search_request p) = (r, w') ->
  info_status r = 200 ->
  body r = Some payload ->
  contains "monitors" payload = Val true ->
  monitor_list payload = Val monitors ->
  py_len monitors = Val n ->
  n <> 1 ->
  run (main fetch p) w
  = (FailJson "unable to uniquely identify monitor" None, [(search_request p, r)]).
Proof.
  intros Hid Hterm Hfetch Hstatus Hbody Hhas Hlist Hlen Hn.
  unfold search_request, search_term, monitor_list in *.
  apply Z.eqb_eq in Hstatus. apply Z.eqb_neq in Hn.
  unfold_main.
  destruct (truthy (param (monitorurl p))) eqn:Hurl;
    destruct (truthy (param (monitorname p))) eqn:Hname; try discriminate Hterm.
  all: paths; reflexivity.
Qed.

(** X4: when the search matches exactly one monitor, its id becomes the
    monitor id: the next remote call is the confirming read of that id,
    sent as [monitors] and as [monitorID], and no create call is made.  (In
    state present the name and the url are still required.) *)
Theorem unique_match_is_confirmed_by_id
    (p : ModuleParams) (w w' : World) (r : Response)
    (payload monitors m0 id : pyval) :
  truthy (param (monitorid p)) = false ->
  truthy (param (monitorname p)) || truthy (param (monitorurl p)) = true ->
  (state p = present ->
   truthy (param (monitorname p)) && truthy (param (monitorurl p)) = true) ->
  fetch w (search_request p) = (r, w') ->
  info_status r = 200 ->
  body r = Some payload ->
  contains "monitors" payload = Val true ->
  monitor_list payload = Val monitors ->
  py_len monitors = Val 1 ->
  getitem0 monitors = Val m0 ->
  getitem m0 "id" = Val id ->
  truthy id = true ->
  (exists rest,
     snd (run (main fetch p) w)
     = (search_request p, r)
         :: (mkRequest status (id_params (apikey p) id),
             fst (fetch w' (mkRequest status (id_params (apikey p) id))))
         :: rest)
  /\ id_params (apikey p) id !! "monitors" = Some id
  /\ id_params (apikey p) id !! "monitorID" = Some id
  /\ existsb is_create (calls (run (main fetch p) w)) = false.
Proof.
  intros Hid Hterm Hpresent Hfetch Hstatus Hbody Hhas Hlist Hlen Hfirst Hrecord Htruthy.
  assert (Hread : exc_bind (getitem0 monitors) (fun m => getitem m "id") = Val id)
    by (rewrite Hfirst; exact Hrecord).
  split; [| split; [| split]].
  2, 3: unfold id_params; by simplify_map_eq.
  all: unfold calls.
  all: destruct (run (main fetch p) w) as [o t] eqn:Hrun; cbn [fst snd].
  all: unfold search_request, search_term, monitor_list in *.
  all: apply Z.eqb_eq in Hstatus.
  all: assert (Hone : (1 =? 1) = true) by reflexivity.
  all: revert Hrun; unfold_main.
  all: destruct (truthy (param (monitorurl p))) eqn:Hurl;
    destruct (truthy (param (monitorname p))) eqn:Hname; try discriminate Hterm.
  all: destruct (state p) eqn:Hstate;
    try (specialize (Hpresent eq_refl); discriminate Hpresent).
  all: paths.
  all: intros [= <- <-]; cbn; try reflexivity; eauto.
Qed.

(** X5: a remote call answered with a status other than 200 ends the
    invocation there: it fails with "failed" and the transport's message
    ([info['msg']]) as result, and no further call is made. *)
Theorem transport_failure_aborts
    (p : ModuleParams) (w : World) (rq : Request) (r : Response) :
  In (rq, r) (snd (run (main fetch p) w)) ->
  info_status r <> 200 ->
  fst (run (main fetch p) w) = FailJson "failed" (Some (info_msg r))
  /\ exists before, snd (run (main fetch p) w) = (before ++ [(rq, r)])%list.
Proof.
  destruct (run (main fetch p) w) as [o t] eqn:Hrun. cbn [fst snd].
  intros Hin Hstatus. apply Z.eqb_neq in Hstatus.
  revert Hrun. unfold_main. paths.
  all: intros [= <- <-]; in_trace Hin.
  all: try congruence.
  all: split; [congruence | ends_with].
Qed.

(** X6: a remote call answered with status 200 and a body that is not JSON
    ends the invocation there with the [ValueError] of [json.loads]; it is
    not turned into a failure of the module. *)
Theorem undecodable_body_raises
    (p : ModuleParams) (w : World) (rq : Request) (r : Response) :
  In (rq, r) (snd (run (main fetch p) w)) ->
  info_status r = 200 ->
  body r = None ->
  fst (run (main fetch p) w) = Raised ValueError
  /\ exists before, snd (run (main fetch p) w) = (before ++ [(rq, r)])%list.
Proof.
  destruct (run (main fetch p) w) as [o t] eqn:Hrun. cbn [fst snd].
  intros Hin Hstatus Hbody. apply Z.eqb_eq in Hstatus.
  revert Hrun. unfold_main. paths.
  all: intros [= <- <-]; in_trace Hin.
  all: try congruence.
  all: split; [congruence | ends_with].
Qed.

(** X7: [checkResult] reads [stat], and [message] when the status fails,
    without a guard: after every call but the search, a payload without a
    [stat], or with a failing [stat] and no [message], ends the invocation
    there with the exception of that read. *)
Theorem payload_without_status_or_message_raises
    (p : ModuleParams) (w : World) (rq : Request) (r : Response)
    (payload : pyval) (e : pyexn) :
  In (rq, r) (snd (run (main fetch p) w)) ->
  is_search rq = false ->
  info_status r = 200 ->
  body r = Some payload ->
  getitem payload "stat" = Exn e
  \/ (exists stat, getitem payload "stat" = Val stat /\ ne_str stat "ok" = true
                   /\ getitem payload "message" = Exn e) ->
  fst (run (main fetch p) w) = Raised e
  /\ exists before, snd (run (main fetch p) w) = (before ++ [(rq, r)])%list.
Proof.
  destruct (run (main fetch p) w) as [o t] eqn:Hrun. cbn [fst snd].
  intros Hin Hsearch Hstatus Hbody Hkeys. apply Z.eqb_eq in Hstatus.
  revert Hrun. unfold_main. paths.
  all: intros [= <- <-]; in_trace Hin.
  all: rewrite ?is_search_search, ?is_search_confirm in Hsearch;
    try discriminate Hsearch.
  all: same_body.
  all: destruct Hkeys as [Hstat | (stat' & Hstat & Hne & Hmsg)]; try congruence.
  all: try (split; [congruence | ends_with]).
  all: same_value; try congruence.
  all: split; [congruence | ends_with].
Qed.

(** X8: when the confirming read shows the monitor already in the desired
    state (status "2" for started, "0" for paused; any status for present),
    no write is sent: the confirming read is the last remote call and the
    invocation reports success with changed = false. *)
Theorem desired_state_already_reached
    (p : ModuleParams) (w : World) (rq : Request) (r : Response) (payload st : pyval) :
  In (rq, r) (snd (run (main fetch p) w)) ->
  is_confirm rq = true ->
  info_status r = 200 ->
  body r = Some payload ->
  getitem payload "stat" = Val (PStr "ok") ->
  first_status payload = Val st ->
  (state p = started /\ st = PStr status_codes_up)
  \/ (state p = paused /\ st = PStr status_codes_paused)
  \/ state p = present ->
  fst (run (main fetch p) w) = Ok (mkExit "success" (PStr "ok") false)
  /\ existsb is_mutating (calls (run (main fetch p) w)) = false
  /\ exists before, snd (run (main fetch p) w) = (before ++ [(rq, r)])%list.
Proof.
  unfold calls.
  destruct (run (main fetch p) w) as [o t] eqn:Hrun. cbn [fst snd].
  intros Hin Hconfirm Hstatus Hbody Hstat Hfirst Hstate.
  apply Z.eqb_eq in Hstatus. unfold first_status in Hfirst.
  assert (Hok : ne_str (PStr "ok") "ok" = false) by reflexivity.
  revert Hrun. unfold_main. paths.
  all: intros [= <- <-]; in_trace Hin.
  all: rewrite ?is_confirm_search, ?is_confirm_confirm in Hconfirm;
    try discriminate Hconfirm.
  all: same_body; try congruence.
  all: same_value.
  all: try congruence.
  all: try (destruct Hstate as [[Hs ->] | [[Hs ->] | Hs]]; try congruence;
            discriminate).
  all: split; [reflexivity | split; [reflexivity | ends_with]].
Qed.

(** X9: in state started (paused), when the confirming read shows a status
    other than "2" ("0"), the next and last remote call is the edit: the
    parameters of the confirming read with monitorStatus 1 (0), so for the
    id that was read; when the edit is answered ok the invocation reports
    success with changed = true. *)
Theorem start_or_pause_edits_the_monitor
    (p : ModuleParams) (w : World) (rq : Request) (r : Response)
    (payload st : pyval) (flag : Z) :
  In (rq, r) (snd (run (main fetch p) w)) ->
  is_confirm rq = true ->
  info_status r = 200 ->
  body r = Some payload ->
  getitem payload "stat" = Val (PStr "ok") ->
  first_status payload = Val st ->
  (state p = started /\ ne_str st status_codes_up = true /\ flag = 1)
  \/ (state p = paused /\ ne_str st status_codes_paused = true /\ flag = 0) ->
  exists before r',
    snd (run (main fetch p) w)
    = (before ++ [(rq, r); (edit_request rq flag, r')])%list
    /\ req_params (edit_request rq flag) !! "monitorID" = req_params rq !! "monitors"
    /\ (forall payload',
          info_status r' = 200 ->
          body r' = Some payload' ->
          getitem payload' "stat" = Val (PStr "ok") ->
          fst (run (main fetch p) w) = Ok (mkExit "success" (PStr "ok") true)).
Proof.
  destruct (run (main fetch p) w) as [o t] eqn:Hrun. cbn [fst snd].
  intros Hin Hconfirm Hstatus Hbody Hstat Hfirst Hstate.
  apply Z.eqb_eq in Hstatus. unfold first_status in Hfirst.
  assert (Hok : ne_str (PStr "ok") "ok" = false) by reflexivity.
  unfold edit_request.
  revert Hrun. unfold_main. paths.
  all: intros [= <- <-]; in_trace Hin.
  all: rewrite ?is_confirm_search, ?is_confirm_confirm in Hconfirm;
    try discriminate Hconfirm.
  all: same_body; try congruence.
  all: same_value.
  all: try congruence.
  all: destruct Hstate as [(Hs & Hne & ->) | (Hs & Hne & ->)]; try congruence.
  all: cbn [req_params].
  all: after_confirm.
  all: split; [apply edit_params_id |].
  all: intros payload' Hs' Hb' Hstat'; apply Z.eqb_eq in Hs'.
  all: same_body; try congruence.
Qed.

(** X10: in state absent, once the confirming read is answered ok with a
    record, the next and last remote call is the delete, whatever the
    monitor's status: the parameters of the confirming read without
    [monitors], so for the id that was read; when the delete is answered ok
    the invocation reports success with changed = true. *)
Theorem absent_deletes_the_monitor
    (p : ModuleParams) (w : World) (rq : Request) (r : Response) (payload st : pyval) :
  state p = absent ->
  In (rq, r) (snd (run (main fetch p) w)) ->
  is_confirm rq = true ->
  info_status r = 200 ->
  body r = Some payload ->
  getitem payload "stat" = Val (PStr "ok") ->
  first_status payload = Val st ->
  exists before r',
    snd (run (main fetch p) w)
    = (before ++ [(rq, r); (delete_request rq, r')])%list
    /\ req_params (delete_request rq) !! "monitors" = None
    /\ req_params (delete_request rq) !! "monitorID" = req_params rq !! "monitors"
    /\ (forall payload',
          info_status r' = 200 ->
          body r' = Some payload' ->
          getitem payload' "stat" = Val (PStr "ok") ->
          fst (run (main fetch p) w) = Ok (mkExit "success" (PStr "ok") true)).
Proof.
  destruct (run (main fetch p) w) as [o t] eqn:Hrun. cbn [fst snd].
  intros Hstate Hin Hconfirm Hstatus Hbody Hstat Hfirst.
  apply Z.eqb_eq in Hstatus. unfold first_status in Hfirst.
  assert (Hok : ne_str (PStr "ok") "ok" = false) by reflexivity.
  unfold delete_request.
  revert Hrun. unfold_main. rewrite Hstate. paths.
  all: intros [= <- <-]; in_trace Hin.
  all: rewrite ?is_confirm_search, ?is_confirm_confirm in Hconfirm;
    try discriminate Hconfirm.
  all: same_body; try congruence.
  all: same_value.
  all: try congruence.
  all: cbn [req_params].
  all: after_confirm.
  all: split; [apply delete_params_monitors |].
  all: split; [apply delete_params_id |].
  all: intros payload' Hs' Hb' Hstat'; apply Z.eqb_eq in Hs'.
  all: same_body; try congruence.
Qed.

(** X11: in state absent, without an explicit id and with a search whose
    payload carries no monitors entry, nothing is deleted: the search is the
    only remote call and the invocation reports success with changed =
    false and the search payload's status as result. *)
Theorem absent_unresolved_reports_success
    (p : ModuleParams) (w w' : World) (r : Response) (payload : pyval) :
  state p = absent ->
  truthy (param (monitorid p)) = false ->
  truthy (param (monitorname p)) || truthy (param (monitorurl p)) = true ->
  fetch w (search_request p) = (r, w') ->
  info_status r = 200 ->
  body r = Some payload ->
  contains "monitors" payload = Val false ->
  run (main fetch p) w
  = (match getitem payload "stat" with
     | Val stat => Ok (mkExit "success" stat false)
     | Exn e => Raised e
     end,
     [(search_request p, r)]).
Proof.
  intros Hstate Hid Hterm Hfetch Hstatus Hbody Hmonitors.
  unfold search_request, search_term in *.
  apply Z.eqb_eq in Hstatus.
  unfold_main. rewrite Hstate.
  destruct (truthy (param (monitorurl p))) eqn:Hurl;
    destruct (truthy (param (monitorname p))) eqn:Hname; try discriminate Hterm.
  all: paths.
  all: reflexivity.
Qed.

(** X12: no monitor is edited or deleted unseen: an edit or delete call
    comes immediately after a confirming read of the same monitor id that
    was answered with status 200, logical status ok and a first record with
    a status. *)
Theorem writes_follow_a_confirmed_read
    (p : ModuleParams) (w : World) (rq : Request) (r : Response) :
  In (rq, r) (snd (run (main fetch p) w)) ->
  req_action rq = editMonitor \/ req_action rq = deleteMonitor_ ->
  exists before rq0 r0,
    snd (run (main fetch p) w) = (before ++ [(rq0, r0); (rq, r)])%list
    /\ is_confirm rq0 = true
    /\ req_params rq !! "monitorID" = req_params rq0 !! "monitorID"
    /\ info_status r0 = 200
    /\ exists payload st,
         body r0 = Some payload
         /\ getitem payload "stat" = Val (PStr "ok")
         /\ first_status payload = Val st.
Proof.
  destruct (run (main fetch p) w) as [o t] eqn:Hrun. cbn [fst snd].
  intros Hin Haction. unfold first_status.
  revert Hrun. unfold_main. paths.
  all: intros [= <- <-]; in_trace Hin.
  all: cbn [req_action] in Haction; try (destruct Haction; discriminate).
  all: before_last.
  all: split; [apply is_confirm_confirm |].
  all: split; [same_id |].
  all: split; [by apply Z.eqb_eq |].
  all: eexists _, _; split; [eassumption |].
  all: split; [| eassumption].
  all: match goal with
       | H : getitem ?x "stat" = Val ?a, H' : ne_str ?a "ok" = false
         |- getitem ?x "stat" = _ => rewrite H; f_equal; exact (ne_str_false _ _ H')
       end.
Qed.

(** X13: a create call is made only in state present, without an explicit
    id, with a name and a url, and right after a search that resolved no
    monitor id (its payload carries no monitors entry, or its one record has
    an empty id); it is the request built from the module's arguments. *)
Theorem create_only_when_unresolved
    (p : ModuleParams) (w : World) (rq : Request) (r : Response) :
  In (rq, r) (snd (run (main fetch p) w)) ->
  req_action rq = newMonitor_ ->
  state p = present
  /\ truthy (param (monitorid p)) = false
  /\ truthy (param (monitorname p)) && truthy (param (monitorurl p)) = true
  /\ rq = create_request p
  /\ exists r1 payload1,
       snd (run (main fetch p) w) = [(search_request p, r1); (rq, r)]
       /\ info_status r1 = 200
       /\ body r1 = Some payload1
       /\ (contains "monitors" payload1 = Val false
           \/ exists monitors id,
                monitor_list payload1 = Val monitors
                /\ py_len monitors = Val 1
                /\ exc_bind (getitem0 monitors) (fun m => getitem m "id") = Val id
                /\ truthy id = false).
Proof.
  destruct (run (main fetch p) w) as [o t] eqn:Hrun. cbn [fst snd].
  intros Hin Haction.
  unfold create_request, search_request, search_term, monitor_list.
  revert Hrun. unfold_main. paths.
  all: intros [= <- <-]; in_trace Hin.
  all: cbn [req_action] in Haction; try discriminate Haction.
  all: given_params.
  all: cbn [negb andb].
  all: do 4 (split; [reflexivity |]).
  all: eexists _, _; split; [reflexivity |].
  all: split; [by apply Z.eqb_eq |].
  all: split; [eassumption |].
  all: first [ left; assumption
             | right; eexists _, _; split; [eassumption |];
               split; [| split; [eassumption | assumption]] ].
  all: match goal with
       | H : py_len ?m = Val ?n, H' : (?n =? 1) = true |- py_len ?m = _ =>
           rewrite H; f_equal; by apply Z.eqb_eq
       end.
Qed.

(** X14: the desired state decides the kind of write: started and paused
    lead to no write but an edit, present to none but a create, absent to
    none but a delete. *)
Theorem state_decides_the_write (p : ModuleParams) (w : World) :
  Forall (fun rq => is_mutating rq = true -> req_action rq = write_of (state p))
    (calls (run (main fetch p) w)).
Proof.
  unfold calls.
  destruct (run (main fetch p) w) as [o t] eqn:Hrun. cbn [fst snd].
  hide_goal o t. revert Hrun. unfold_main. paths.
  all: intros [= <- <-]; subst Q; cbn [map fst].
  all: each_request; cbn; intros; try discriminate.
  all: reflexivity.
Qed.

(** X15: every request of an invocation carries the api key of the
    arguments, format json and noJsonCallback 1. *)
Theorem every_request_carries_the_api_key (p : ModuleParams) (w : World) :
  Forall (common_params (apikey p)) (calls (run (main fetch p) w)).
Proof.
  unfold calls.
  destruct (run (main fetch p) w) as [o t] eqn:Hrun. cbn [fst snd].
  hide_goal o t. revert Hrun. unfold_main. paths.
  all: intros [= <- <-]; subst Q; cbn [map fst].
  all: each_request;
    auto using common_params_search, common_params_confirm, common_params_edit,
      common_params_delete, common_params_create, common_params_create_no_contacts.
Qed.

(** X16: no request carries a parameter that is [None], empty or zero, the
    api key as given and the monitorStatus flag apart: an argument that was
    not given is never sent (url-encoded, it would be the text None). *)
Theorem no_blank_parameter_is_sent (p : ModuleParams) (w : World) :
  Forall no_blank_param (calls (run (main fetch p) w)).
Proof.
  unfold calls.
  destruct (run (main fetch p) w) as [o t] eqn:Hrun. cbn [fst snd].
  hide_goal o t. revert Hrun. unfold_main. paths.
  all: intros [= <- <-]; subst Q; cbn [map fst].
  all: each_request.
  all: no_blank.
Qed.

(** X17: an invocation that succeeds made at least one remote call, every
    call was answered with status 200 and a JSON body, and the result it
    reports is the logical status of the last payload; that status is ok
    unless the search was the only call. *)
Theorem success_reports_the_last_status (p : ModuleParams) (w : World) :
  match fst (run (main fetch p) w) with
  | Ok a =>
      Forall usable (snd (run (main fetch p) w))
      /\ (exists before rq r payload,
            snd (run (main fetch p) w) = (before ++ [(rq, r)])%list
            /\ body r = Some payload
            /\ getitem payload "stat" = Val (exit_result a))
      /\ (exit_result a = PStr "ok"
          \/ exists r, snd (run (main fetch p) w) = [(search_request p, r)])
  | _ => True
  end.
Proof.
  destruct (run (main fetch p) w) as [o t] eqn:Hrun. cbn [fst snd].
  unfold search_request, search_term.
  hide_goal o t. revert Hrun. unfold_main. paths.
  all: intros [= <- <-]; subst Q; cbv beta iota; try exact I.
  all: cbn [exit_result]; status_ok; transport_facts.
  all: split; [each_request; split; cbn [snd]; eauto |].
  all: split; [last_event; split; eassumption |].
  all: first [ left; reflexivity
             | right; given_params; eexists; reflexivity ].
Qed.

(** X18: the module fails in four ways only.  "failed" relays the last
    answer: the transport's message when its status is not 200, else the
    payload's message.  The three failures of the module's own carry no
    result and come before any write: no monitor named (no call), no unique
    match (the search alone) and, in state present, a missing name or url
    (at most the search). *)
Theorem failures_are_of_four_kinds (p : ModuleParams) (w : World) :
  match fst (run (main fetch p) w) with
  | FailJson msg res =>
      (msg = "failed"
       /\ exists before rq r,
            snd (run (main fetch p) w) = (before ++ [(rq, r)])%list
            /\ ((info_status r <> 200 /\ res = Some (info_msg r))
                \/ (info_status r = 200
                    /\ exists payload message,
                         body r = Some payload
                         /\ getitem payload "message" = Val message
                         /\ res = Some message)))
      \/ (res = None
          /\ existsb is_mutating (calls (run (main fetch p) w)) = false
          /\ ((msg = "at least one of monitorid, monitorname or monitorurl are required"
               /\ snd (run (main fetch p) w) = [])
              \/ (msg = "unable to uniquely identify monitor"
                  /\ exists r, snd (run (main fetch p) w) = [(search_request p, r)])
              \/ (msg = "monitorname and monitorurl are required for state present"
                  /\ state p = present
                  /\ (length (snd (run (main fetch p) w)) <= 1)%nat)))
  | _ => True
  end.
Proof.
  unfold calls.
  destruct (run (main fetch p) w) as [o t] eqn:Hrun. cbn [fst snd].
  unfold search_request, search_term.
  hide_goal o t. revert Hrun. unfold_main. paths.
  all: intros [= <- <-]; subst Q; cbv beta iota; try exact I.
  all: transport_facts; given_params.
  all: first
         [ right; split; [reflexivity |]; split; [reflexivity |];
           first [ left; split; reflexivity
                 | right; left; split; [reflexivity | eexists; reflexivity]
                 | right; right; split; [reflexivity |];
                   split; [reflexivity | cbn; lia] ]
         | left; split; [reflexivity |];
           last_call;
           first [ left; split; [assumption | reflexivity]
                 | right; split; [assumption |];
                   eexists _, _; split; [eassumption |];
                   split; [eassumption | reflexivity] ] ].
Qed.

(** X19: for starting, pausing and removing, only the state, the api key
    and the monitor id or, without an id, the search term matter: the alert
    contacts are ignored, the name is ignored when a url is given, and name
    and url are ignored when an id is given. *)
Theorem unused_arguments_are_ignored (p p' : ModuleParams) (w : World) :
  state p <> present ->
  same_target p p' ->
  run (main fetch p') w = run (main fetch p) w.
Proof.
  intros Hstate (Hs & Hk & Hi & Hterm). unfold search_term in Hterm.
  unfold_main. tidy. rewrite Hs, Hk, Hi.
  destruct (truthy (param (monitorid p))) eqn:Hid.
  - destruct (state p); try contradiction; reflexivity.
  - destruct Hterm as [Hterm | Hterm]; [discriminate |].
    destruct (truthy (param (monitorurl p))) eqn:Hu;
      destruct (truthy (param (monitorurl p'))) eqn:Hu';
      destruct (truthy (param (monitorname p))) eqn:Hn;
      destruct (truthy (param (monitorname p'))) eqn:Hn';
      cbn [negb andb];
      try (rewrite Hterm in *; congruence);
      try (rewrite <- Hterm in *; congruence).
    all: try rewrite Hterm.
    all: destruct (state p); try contradiction; reflexivity.
Qed.

End Further.

(** ** The claims on concrete runs *)

(** C1, as stated, fails: with both a name and a url and no id, the search
    term sent is the url, not the name. *)
Lemma search_term_is_not_the_name :
  sent_search_term (snd (run (main scripted name_and_url) one_monitor_up))
  = Some (PStr "https://www.google.com")
  /\ sent_search_term (snd (run (main scripted name_and_url) one_monitor_up))
     <> Some (PStr "google").
Proof. split; vm_compute; [reflexivity | discriminate]. Qed.

Lemma search_term_is_url_then_name_witness :
  exists r rest,
    snd (run (main scripted name_and_url) one_monitor_up)
    = (search_request name_and_url, r) :: rest
    /\ sent_search_term (snd (run (main scripted name_and_url) one_monitor_up))
       = Some (PStr "https://www.google.com").
Proof.
  apply (search_term_is_url_then_name scripted name_and_url one_monitor_up);
    reflexivity.
Defined.

(** C2, as stated, fails: pausing by a name that the search does not find
    reports success. *)
Lemma pause_nonexistent_reports_success :
  run (main scripted (by_name paused)) nothing_found
  = (Ok (mkExit "success" (PStr "fail") false),
     [(search_request (by_name paused), answer (failure_payload "no monitors found"))]).
Proof. vm_compute. reflexivity. Qed.

Lemma start_pause_unresolved_reports_success_witness :
  run (main scripted (by_name started)) nothing_found
  = (Ok (mkExit "success" (PStr "fail") false),
     [(search_request (by_name started), answer (failure_payload "no monitors found"))]).
Proof.
  apply (start_pause_unresolved_reports_success scripted (by_name started)
           nothing_found [] (answer (failure_payload "no monitors found"))
           (failure_payload "no monitors found"));
    [left; reflexivity | reflexivity ..].
Defined.

(** C3, as stated, fails: pausing by name a monitor that is up takes three
    remote calls: the search, the confirming read and the edit. *)
Lemma three_remote_calls :
  actions (snd (run (main scripted (by_name paused)) found_confirmed_paused))
  = [status; status; editMonitor]
  /\ length (calls (run (main scripted (by_name paused)) found_confirmed_paused)) = 3%nat.
Proof. split; vm_compute; reflexivity. Qed.

(** C4, as stated, fails: a failed logical status on the identity search is
    not surfaced; the invocation reports success. *)
Lemma failed_search_is_not_surfaced :
  fst (run (main scripted (by_name absent))
         [answer (failure_payload "apiKey not mentioned or in a wrong format")])
  = Ok (mkExit "success" (PStr "fail") false).
Proof. vm_compute. reflexivity. Qed.

Lemma logical_failure_aborts_witness :
  fst (run (main scripted start_stale) stale_answer)
  = FailJson "failed" (Some (PStr "monitor not found"))
  /\ exists before,
       snd (run (main scripted start_stale) stale_answer)
       = (before ++ [(mkRequest status (id_params api_key (PStr "99999")),
                      answer (failure_payload "monitor not found"))])%list.
Proof.
  apply (logical_failure_aborts_after_every_call_but_search scripted start_stale
           stale_answer (mkRequest status (id_params api_key (PStr "99999")))
           (answer (failure_payload "monitor not found"))
           (failure_payload "monitor not found") (PStr "fail")
           (PStr "monitor not found"));
    [left; reflexivity | reflexivity ..].
Defined.

(** C5, as stated, fails: after a successful create that returns the id 777
    the resolved id is still unset, and no further call is made. *)
Lemma created_id_is_not_resolved :
  fst (run (main_body scripted add_google) nothing_found_then_created)
  = Ok (mkLocals (created_payload "777") true PNone)
  /\ actions (snd (run (main scripted add_google) nothing_found_then_created))
     = [status; newMonitor_].
Proof. split; vm_compute; reflexivity. Qed.

Lemma create_success_reports_changed_witness :
  fst (run (main scripted add_google) nothing_found_then_created)
  = Ok (mkExit "success" (PStr "ok") true)
  /\ (exists before,
        snd (run (main scripted add_google) nothing_found_then_created)
        = (before ++ [(create_request add_google, answer (created_payload "777"))])%list)
  /\ exists id,
       fst (run (main_body scripted add_google) nothing_found_then_created)
       = Ok (mkLocals (created_payload "777") true id)
       /\ truthy id = false.
Proof.
  apply (create_success_reports_changed scripted add_google
           nothing_found_then_created (create_request add_google)
           (answer (created_payload "777")) (created_payload "777"));
    [right; left; reflexivity | reflexivity ..].
Defined.

(** C6, as stated, fails: state present with an explicit id and neither
    name nor url fails for the missing name and url, before any call. *)
Lemma present_by_id_needs_name_and_url :
  run (main scripted present_by_id) one_monitor_up
  = (FailJson "monitorname and monitorurl are required for state present" None, []).
Proof. vm_compute. reflexivity. Qed.

Lemma present_requires_name_and_url_witness :
  run (main scripted present_by_id) one_monitor_up
  = (FailJson "monitorname and monitorurl are required for state present" None, []).
Proof.
  apply (present_requires_name_and_url scripted present_by_id one_monitor_up
           (initial_locals present_by_id) []);
    reflexivity.
Defined.





(** ** The further properties on concrete runs *)

Lemma identity_argument_required_witness :
  run (main scripted nothing_named) one_monitor_up
  = (FailJson "at least one of monitorid, monitorname or monitorurl are required" None, []).
Proof.
  apply (proj1 (identity_argument_required scripted nothing_named one_monitor_up)).
  reflexivity.
Defined.

Lemma explicit_id_skips_the_search_witness :
  existsb is_search (calls (run (main scripted start_stale) stale_answer)) = false
  /\ match snd (run (main scripted start_stale) stale_answer) with
     | [] => state start_stale = present
             /\ truthy (param (monitorname start_stale))
                && truthy (param (monitorurl start_stale)) = false
     | (rq, _) :: _ => rq = mkRequest status (id_params api_key (PStr "99999"))
     end.
Proof.
  apply (explicit_id_skips_the_search scripted start_stale stale_answer).
  reflexivity.
Defined.

Lemma ambiguous_search_fails_witness :
  run (main scripted (by_name absent)) two_monitors
  = (FailJson "unable to uniquely identify monitor" None,
     [(search_request (by_name absent),
       answer (monitors_payload [monitor_record "12345" "2"; monitor_record "67890" "0"]))]).
Proof.
  apply (ambiguous_search_fails scripted (by_name absent) two_monitors []
           (answer (monitors_payload [monitor_record "12345" "2"; monitor_record "67890" "0"]))
           (monitors_payload [monitor_record "12345" "2"; monitor_record "67890" "0"])
           (PList [monitor_record "12345" "2"; monitor_record "67890" "0"]) 2);
    [reflexivity .. | lia].
Defined.

Lemma unique_match_is_confirmed_by_id_witness :
  (exists rest,
     snd (run (main scripted name_and_url) one_monitor_up)
     = (search_request name_and_url, answer (monitors_payload [monitor_record "12345" "2"]))
         :: (mkRequest status (id_params api_key (PStr "12345")),
             answer (monitors_payload [monitor_record "12345" "2"]))
         :: rest)
  /\ id_params api_key (PStr "12345") !! "monitors" = Some (PStr "12345")
  /\ id_params api_key (PStr "12345") !! "monitorID" = Some (PStr "12345")
  /\ existsb is_create (calls (run (main scripted name_and_url) one_monitor_up)) = false.
Proof.
  apply (unique_match_is_confirmed_by_id scripted name_and_url one_monitor_up
           [answer (monitors_payload [monitor_record "12345" "2"])]
           (answer (monitors_payload [monitor_record "12345" "2"]))
           (monitors_payload [monitor_record "12345" "2"])
           (PList [monitor_record "12345" "2"]) (monitor_record "12345" "2")
           (PStr "12345"));
    [reflexivity | reflexivity | discriminate | reflexivity ..].
Defined.

Lemma transport_failure_aborts_witness :
  fst (run (main scripted start_stale) no_answer)
  = FailJson "failed" (Some (PStr "no answer"))
  /\ exists before,
       snd (run (main scripted start_stale) no_answer)
       = (before ++ [(mkRequest status (id_params api_key (PStr "99999")),
                      mkResponse (-1) (PStr "no answer") None)])%list.
Proof.
  apply (transport_failure_aborts scripted start_stale no_answer
           (mkRequest status (id_params api_key (PStr "99999")))
           (mkResponse (-1) (PStr "no answer") None));
    [left; reflexivity | discriminate].
Defined.

Lemma undecodable_body_raises_witness :
  fst (run (main scripted start_stale) not_json) = Raised ValueError
  /\ exists before,
       snd (run (main scripted start_stale) not_json)
       = (before ++ [(mkRequest status (id_params api_key (PStr "99999")),
                      mkResponse 200 (PStr "OK") None)])%list.
Proof.
  apply (undecodable_body_raises scripted start_stale not_json
           (mkRequest status (id_params api_key (PStr "99999")))
           (mkResponse 200 (PStr "OK") None));
    [left; reflexivity | reflexivity ..].
Defined.

Lemma payload_without_status_or_message_raises_witness :
  fst (run (main scripted start_stale) empty_object_answer) = Raised KeyError
  /\ exists before,
       snd (run (main scripted start_stale) empty_object_answer)
       = (before ++ [(mkRequest status (id_params api_key (PStr "99999")),
                      answer (dict []))])%list.
Proof.
  apply (payload_without_status_or_message_raises scripted start_stale
           empty_object_answer
           (mkRequest status (id_params api_key (PStr "99999")))
           (answer (dict [])) (dict []) KeyError);
    [left; reflexivity | reflexivity | reflexivity | reflexivity | left; reflexivity].
Defined.

Lemma desired_state_already_reached_witness :
  fst (run (main scripted name_and_url) one_monitor_up)
  = Ok (mkExit "success" (PStr "ok") false)
  /\ existsb is_mutating (calls (run (main scripted name_and_url) one_monitor_up)) = false
  /\ exists before,
       snd (run (main scripted name_and_url) one_monitor_up)
       = (before ++ [(mkRequest status (id_params api_key (PStr "12345")),
                      answer (monitors_payload [monitor_record "12345" "2"]))])%list.
Proof.
  apply (desired_state_already_reached scripted name_and_url one_monitor_up
           (mkRequest status (id_params api_key (PStr "12345")))
           (answer (monitors_payload [monitor_record "12345" "2"]))
           (monitors_payload [monitor_record "12345" "2"]) (PStr "2"));
    [right; left; reflexivity | reflexivity | reflexivity | reflexivity
     | reflexivity | reflexivity | left; split; reflexivity].
Defined.

Lemma start_or_pause_edits_the_monitor_witness :
  exists before r',
    snd (run (main scripted (by_name paused)) found_confirmed_paused)
    = (before
       ++ [(mkRequest status (id_params api_key (PStr "12345")),
            answer (monitors_payload [monitor_record "12345" "2"]));
           (edit_request (mkRequest status (id_params api_key (PStr "12345"))) 0, r')])%list
    /\ req_params (edit_request (mkRequest status (id_params api_key (PStr "12345"))) 0)
         !! "monitorID"
       = req_params (mkRequest status (id_params api_key (PStr "12345"))) !! "monitors"
    /\ (forall payload',
          info_status r' = 200 ->
          body r' = Some payload' ->
          getitem payload' "stat" = Val (PStr "ok") ->
          fst (run (main scripted (by_name paused)) found_confirmed_paused)
          = Ok (mkExit "success" (PStr "ok") true)).
Proof.
  apply (start_or_pause_edits_the_monitor scripted (by_name paused)
           found_confirmed_paused
           (mkRequest status (id_params api_key (PStr "12345")))
           (answer (monitors_payload [monitor_record "12345" "2"]))
           (monitors_payload [monitor_record "12345" "2"]) (PStr "2") 0);
    [right; left; reflexivity | reflexivity | reflexivity | reflexivity
     | reflexivity | reflexivity | right; repeat split; reflexivity].
Defined.

Lemma absent_deletes_the_monitor_witness :
  exists before r',
    snd (run (main scripted (by_name absent)) found_confirmed_paused)
    = (before
       ++ [(mkRequest status (id_params api_key (PStr "12345")),
            answer (monitors_payload [monitor_record "12345" "2"]));
           (delete_request (mkRequest status (id_params api_key (PStr "12345"))), r')])%list
    /\ req_params (delete_request (mkRequest status (id_params api_key (PStr "12345"))))
         !! "monitors" = None
    /\ req_params (delete_request (mkRequest status (id_params api_key (PStr "12345"))))
         !! "monitorID"
       = req_params (mkRequest status (id_params api_key (PStr "12345"))) !! "monitors"
    /\ (forall payload',
          info_status r' = 200 ->
          body r' = Some payload' ->
          getitem payload' "stat" = Val (PStr "ok") ->
          fst (run (main scripted (by_name absent)) found_confirmed_paused)
          = Ok (mkExit "success" (PStr "ok") true)).
Proof.
  apply (absent_deletes_the_monitor scripted (by_name absent)
           found_confirmed_paused
           (mkRequest status (id_params api_key (PStr "12345")))
           (answer (monitors_payload [monitor_record "12345" "2"]))
           (monitors_payload [monitor_record "12345" "2"]) (PStr "2"));
    [reflexivity | right; left; reflexivity | reflexivity ..].
Defined.

Lemma absent_unresolved_reports_success_witness :
  run (main scripted (by_name absent)) nothing_found
  = (Ok (mkExit "success" (PStr "fail") false),
     [(search_request (by_name absent), answer (failure_payload "no monitors found"))]).
Proof.
  apply (absent_unresolved_reports_success scripted (by_name absent) nothing_found []
           (answer (failure_payload "no monitors found"))
           (failure_payload "no monitors found"));
    reflexivity.
Defined.

Lemma writes_follow_a_confirmed_read_witness :
  exists before rq0 r0,
    snd (run (main scripted (by_name paused)) found_confirmed_paused)
    = (before
       ++ [(rq0, r0);
           (edit_request (mkRequest status (id_params api_key (PStr "12345"))) 0,
            answer ack_payload)])%list
    /\ is_confirm rq0 = true
    /\ req_params (edit_request (mkRequest status (id_params api_key (PStr "12345"))) 0)
         !! "monitorID"
       = req_params rq0 !! "monitorID"
    /\ info_status r0 = 200
    /\ exists payload st,
         body r0 = Some payload
         /\ getitem payload "stat" = Val (PStr "ok")
         /\ first_status payload = Val st.
Proof.
  apply (writes_follow_a_confirmed_read scripted (by_name paused)
           found_confirmed_paused
           (edit_request (mkRequest status (id_params api_key (PStr "12345"))) 0)
           (answer ack_payload));
    [right; right; left; reflexivity | left; reflexivity].
Defined.

Lemma create_only_when_unresolved_witness :
  state add_google = present
  /\ truthy (param (monitorid add_google)) = false
  /\ truthy (param (monitorname add_google)) && truthy (param (monitorurl add_google))
     = true
  /\ create_request add_google = create_request add_google
  /\ exists r1 payload1,
       snd (run (main scripted add_google) nothing_found_then_created)
       = [(search_request add_google, r1);
          (create_request add_google, answer (created_payload "777"))]
       /\ info_status r1 = 200
       /\ body r1 = Some payload1
       /\ (contains "monitors" payload1 = Val false
           \/ exists monitors id,
                monitor_list payload1 = Val monitors
                /\ py_len monitors = Val 1
                /\ exc_bind (getitem0 monitors) (fun m => getitem m "id") = Val id
                /\ truthy id = false).
Proof.
  apply (create_only_when_unresolved scripted add_google nothing_found_then_created
           (create_request add_google) (answer (created_payload "777")));
    [right; left; reflexivity | reflexivity].
Defined.

Lemma unused_arguments_are_ignored_witness :
  run (main scripted by_name_with_contacts) one_monitor_up
  = run (main scripted (by_name started)) one_monitor_up.
Proof.
  apply (unused_arguments_are_ignored scripted (by_name started)
           by_name_with_contacts one_monitor_up);
    [discriminate | repeat split; right; reflexivity].
Defined.
